(** * commit-changes.py: the command runner and the deployment driver

    The script is a linear procedure over an operating system: it spawns
    child processes, changes directory, sleeps and writes lines to the
    console.  The operating system is kept abstract (class [Platform]);
    the script is embedded as state-passing code over it, in a small monad
    that threads the OS state, accumulates the observable events and
    propagates Python exceptions.

    Modelling conventions
    - [subprocess.run(cmd, shell=True, capture_output=True, text=True,
      timeout=t)] either returns a [CompletedProcess] or raises; the
      exceptions it raises are instances of [Exception], of which
      [subprocess.TimeoutExpired] is told apart because the runner has a
      clause for it.  Asynchronous [BaseException]s (a keyboard interrupt)
      are not part of this embedding.
    - [print] does not fail in this embedding;
    - integers are [Z]; captured output is a [string].

    The source guarantees neither of the first two.  Module [Fallible]
    embeds the runner a second time without them, and whether an
    exception can leave the runner is settled there; the two embeddings
    agree where the assumptions hold ([fallible_runner_agrees]). *)

From Stdlib Require Import String Ascii ZArith List Bool Lia DecimalString.
Import ListNotations.

Open Scope string_scope.
Open Scope Z_scope.

(** ** Python values used by the script *)

Inductive exception : Type :=
| TimeoutExpired (cmd : string) (timeout : Z)
| Exception (msg : string).

(** What [subprocess.run] returns with [capture_output=True, text=True]. *)
Record CompletedProcess : Type := mkCompleted {
  stdout : string;
  stderr : string;
  returncode : Z
}.

(** Observable effects, in the order they happen. *)
Inductive event : Type :=
| Print (line : string)
| Chdir (path : string) (r : exception + unit)
| Run (cmd : string) (timeout : Z) (r : exception + CompletedProcess)
| Sleep (secs : Z).

(** The services the script asks of its environment. *)
Class Platform (OS : Type) : Type := {
  subprocess_run : string -> Z -> OS -> (exception + CompletedProcess) * OS;
  os_chdir : string -> OS -> (exception + unit) * OS;
  os_getcwd : OS -> string;
  strftime_now : OS -> string;
  time_sleep : Z -> OS -> OS
}.

(** [str(n)] for an integer. *)
Definition str (n : Z) : string := NilZero.string_of_int (Z.to_int n).

(** Truth value of a Python string: non-empty. *)
Definition truthy (s : string) : bool :=
  match s with EmptyString => false | String _ _ => true end.

Definition nl : string := String (ascii_of_nat 10) EmptyString.
Definition dquote : string := String (ascii_of_nat 34) EmptyString.

(** ** The effect monad *)

Record outcome (OS A : Type) : Type := mkOutcome {
  trace : list event;
  result : exception + A;
  final : OS
}.
Arguments mkOutcome {OS A} _ _ _.
Arguments trace {OS A} _.
Arguments result {OS A} _.
Arguments final {OS A} _.

Definition M (OS A : Type) : Type := OS -> outcome OS A.

Definition ret {OS A} (a : A) : M OS A :=
  fun os => mkOutcome [] (inr a) os.

Definition bind {OS A B} (m : M OS A) (k : A -> M OS B) : M OS B :=
  fun os =>
    let o := m os in
    match result o with
    | inl e => mkOutcome (trace o) (inl e) (final o)
    | inr a =>
        let o' := k a (final o) in
        mkOutcome (trace o ++ trace o') (result o') (final o')
    end.

(** [try: body / except ...: handler]. *)
Definition try_except {OS A} (body : M OS A) (handler : exception -> M OS A)
  : M OS A :=
  fun os =>
    let o := body os in
    match result o with
    | inl e =>
        let o' := handler e (final o) in
        mkOutcome (trace o ++ trace o') (result o') (final o')
    | inr a => o
    end.

Declare Scope py_scope.
Delimit Scope py_scope with py.
Notation "x <- m ;; k" := (bind m (fun x => k))
  (at level 61, m at next level, right associativity) : py_scope.
Notation "m ;; k" := (bind m (fun _ => k))
  (at level 61, right associativity) : py_scope.

Section Script.

Context {OS : Type} {P : Platform OS}.

Definition print (line : string) : M OS unit :=
  fun os => mkOutcome [Print line] (inr tt) os.

Definition run (cmd : string) (timeout : Z) : M OS CompletedProcess :=
  fun os =>
    let (r, os') := subprocess_run cmd timeout os in
    mkOutcome [Run cmd timeout r] r os'.

Definition chdir (path : string) : M OS unit :=
  fun os =>
    let (r, os') := os_chdir path os in
    mkOutcome [Chdir path r] r os'.

Definition getcwd : M OS string :=
  fun os => mkOutcome [] (inr (os_getcwd os)) os.

Definition now : M OS string :=
  fun os => mkOutcome [] (inr (strftime_now os)) os.

Definition sleep (secs : Z) : M OS unit :=
  fun os => mkOutcome [Sleep secs] (inr tt) (time_sleep secs os).

Definition when (b : bool) (m : M OS unit) : M OS unit :=
  if b then m else ret tt.

(** ** [run_command_with_timeout] *)

(** The default of the [timeout] parameter; every call in [main] passes
    its own. *)
Definition default_timeout : Z := 300.

Definition run_command_with_timeout (cmd : string) (timeout : Z) : M OS bool :=
  (t <- now ;;
   print ("[" ++ t ++ "] Running: " ++ cmd) ;;
   try_except
     (result <- run cmd timeout ;;
      when (truthy (stdout result)) (print ("STDOUT: " ++ stdout result)) ;;
      when (truthy (stderr result)) (print ("STDERR: " ++ stderr result)) ;;
      if returncode result =? 0 then
        print ("✅ Command succeeded: " ++ cmd) ;;
        ret true
      else
        print ("❌ Command failed with code " ++ str (returncode result)
               ++ ": " ++ cmd) ;;
        ret false)
     (fun e =>
        match e with
        | TimeoutExpired _ _ =>
            print ("⏰ Command timed out after " ++ str timeout ++ "s: " ++ cmd) ;;
            ret false
        | Exception msg =>
            print ("💥 Command error: " ++ msg) ;;
            ret false
        end))%py.

(** ** [main] *)

Definition working_directory : string :=
  "/Users/damondecrescenzo/dev_framework_demo".

Definition commit_message : string :=
  "fix: resolve GitHub Actions syntax hanging and add comprehensive deployment protection

🔧 CRITICAL FIXES APPLIED:
- Fixed all GitHub Actions syntax escaping in install-framework-smart.sh
- Resolved 45+ instances of unescaped ${{ }} patterns causing shell hanging
- Added timeout protection and debug logging throughout installation script
- Protected npm install and all long-running commands with timeouts

🛡️ DEPLOYMENT PROTECTION ADDED:
- Created deploy-with-timeout.sh with comprehensive error handling
- Added validate-installation-syntax.sh for pre-deployment validation
- Implemented signal handlers and automatic cleanup on interruption
- Added timestamped debug logging with color-coded output

🚀 PRODUCTION READY FEATURES:
- Installation script now hang-proof with 30-minute max runtime
- GitHub Actions workflows properly configured with escaped syntax
- Complete security automation (Dependabot, SonarCloud, Qodo) integrated
- Comprehensive testing and validation scripts included

✅ DEPLOYMENT VERIFICATION:
- All GitHub Actions patterns properly escaped as \${{ }}
- Timeout protection on all critical operations
- Debug logging for complete visibility
- Automatic cleanup prevents hanging processes

This resolves the critical deployment blocker and ensures reliable installation on new repositories.".

Definition status_cmd : string := "git status --porcelain".
Definition add_cmd : string := "git add .".
Definition commit_cmd : string :=
  "git commit -m " ++ dquote ++ commit_message ++ dquote.
Definition push_cmd : string := "git push".
Definition list_cmd : string := "gh run list --limit 3".

Definition main : M OS bool :=
  (print "🚀 Uploading Changes to Repository" ;;
   print "==================================" ;;
   chdir working_directory ;;
   cwd <- getcwd ;;
   print ("📁 Working directory: " ++ cwd) ;;
   print (nl ++ "📋 Step 1: Checking git status...") ;;
   ok <- run_command_with_timeout status_cmd 30 ;;
   if negb ok then
     print "❌ Failed to check git status" ;;
     ret false
   else
   print (nl ++ "📦 Step 2: Adding all changes...") ;;
   ok <- run_command_with_timeout add_cmd 60 ;;
   if negb ok then
     print "❌ Failed to add changes" ;;
     ret false
   else
   print (nl ++ "💾 Step 3: Committing changes...") ;;
   ok <- run_command_with_timeout commit_cmd 60 ;;
   when (negb ok)
     (print "⚠️ Commit may have failed or no changes to commit") ;;
   print (nl ++ "🚀 Step 4: Pushing changes to remote...") ;;
   ok <- run_command_with_timeout push_cmd 120 ;;
   if negb ok then
     print "❌ Failed to push changes" ;;
     ret false
   else
   print (nl ++ "✅ Successfully uploaded all changes to repository!") ;;
   print (nl ++ "👀 Step 5: Checking GitHub Actions status...") ;;
   sleep 10 ;;
   ok <- run_command_with_timeout list_cmd 30 ;;
   (if ok then
      print "✅ GitHub Actions are running"
    else
      print "⚠️ Could not check GitHub Actions (may need authentication)") ;;
   ret true)%py.

(** ** The [__main__] block

    [sys.exit(c)] ends the process with status [c]; an exception that
    leaves [main] uncaught ends it with status 1. *)

Definition script : M OS Z :=
  (success <- main ;;
   if (success : bool) then
     print (nl ++ "🎉 DEPLOYMENT COMPLETE!") ;;
     print "📋 Changes uploaded successfully" ;;
     print "🔍 Monitor GitHub Actions in the repository" ;;
     ret 0
   else
     print (nl ++ "💥 DEPLOYMENT FAILED!") ;;
     print "📋 Check the error messages above" ;;
     ret 1)%py.

Definition exit_status (o : outcome OS Z) : Z :=
  match result o with
  | inr code => code
  | inl _ => 1
  end.

End Script.

(** ** Observations on a run *)

(** The boolean the runner derives from what [subprocess.run] did. *)
Definition succeeded (r : exception + CompletedProcess) : bool :=
  match r with
  | inr p => returncode p =? 0
  | inl _ => false
  end.



Definition is_print (e : event) : bool :=
  match e with Print _ => true | _ => false end.

(** The trace without its console lines. *)
Definition visible (tr : list event) : list event :=
  filter (fun e => negb (is_print e)) tr.

(** Steps and pauses, without their outcomes. *)
Inductive action : Type :=
| Invoke (cmd : string) (timeout : Z)
| Pause (secs : Z).

Fixpoint actions (tr : list event) : list action :=
  match tr with
  | [] => []
  | Run cmd t _ :: tr' => Invoke cmd t :: actions tr'
  | Sleep n :: tr' => Pause n :: actions tr'
  | _ :: tr' => actions tr'
  end.

(** The order of the five steps. *)
Definition schedule : list action :=
  [ Invoke status_cmd 30; Invoke add_cmd 60; Invoke commit_cmd 60;
    Invoke push_cmd 120; Pause 10; Invoke list_cmd 30 ].

(** Whether the step running [cmd] was attempted, and how it went. *)
Fixpoint step_outcome (cmd : string) (tr : list event) : option bool :=
  match tr with
  | [] => None
  | Run c _ r :: tr' =>
      if String.eqb c cmd then Some (succeeded r) else step_outcome cmd tr'
  | _ :: tr' => step_outcome cmd tr'
  end.

(** The command lines handed to the runner. *)
Fixpoint invocations (tr : list event) : list string :=
  match tr with
  | [] => []
  | Run cmd _ _ :: tr' => cmd :: invocations tr'
  | _ :: tr' => invocations tr'
  end.

Section Sequencing.

Context {OS : Type} {P : Platform OS}.

(** [threads os tr os']: the events of [tr] happen one after the other
    from [os], each starting in the state its predecessor left, and end in
    [os']. *)
Inductive threads : OS -> list event -> OS -> Prop :=
| threads_nil os :
    threads os [] os
| threads_print os line tr os' :
    threads os tr os' ->
    threads os (Print line :: tr) os'
| threads_chdir os path tr os' :
    threads (snd (os_chdir path os)) tr os' ->
    threads os (Chdir path (fst (os_chdir path os)) :: tr) os'
| threads_run os cmd t tr os' :
    threads (snd (subprocess_run cmd t os)) tr os' ->
    threads os (Run cmd t (fst (subprocess_run cmd t os)) :: tr) os'
| threads_sleep os n tr os' :
    threads (time_sleep n os) tr os' ->
    threads os (Sleep n :: tr) os'.

(** [yields m os vis r os']: started in [os], [m] ends in [os'] with
    result [r], and [vis] is what it did besides writing to the console. *)
Definition yields {A : Type} (m : M OS A) (os : OS)
    (vis : list event) (r : exception + A) (os' : OS) : Prop :=
  result (m os) = r /\ visible (trace (m os)) = vis /\ final (m os) = os'.

End Sequencing.

(** ** A scripted platform

    An environment whose children answer from a prepared list, one answer
    per spawn; used to run the script on concrete scenarios. *)

Definition scripted : Type := list (exception + CompletedProcess).

#[export] Instance scripted_platform : Platform scripted := {|
  subprocess_run := fun _ _ os =>
    match os with
    | [] => (inl (Exception "no child"), [])
    | r :: os' => (r, os')
    end;
  os_chdir := fun _ os => (inr tt, os);
  os_getcwd := fun _ => working_directory;
  strftime_now := fun _ => "12:00:00";
  time_sleep := fun _ os => os
|}.

Definition exits (code : Z) : exception + CompletedProcess :=
  inr (mkCompleted "" "" code).

Definition says (out err : string) (code : Z) : exception + CompletedProcess :=
  inr (mkCompleted out err code).

Definition times_out (cmd : string) (t : Z) : exception + CompletedProcess :=
  inl (TimeoutExpired cmd t).

Definition faults (msg : string) : exception + CompletedProcess :=
  inl (Exception msg).

(** A platform on which the working directory is missing. *)
Definition homeless_platform : Platform scripted := {|
  subprocess_run := @subprocess_run _ scripted_platform;
  os_chdir := fun _ os => (inl (Exception "No such file or directory"), os);
  os_getcwd := fun _ => "/";
  strftime_now := fun _ => "12:00:00";
  time_sleep := fun _ os => os
|}.

(** Scenarios: the answers to the successive spawns. *)
Definition all_ok : scripted :=
  [exits 0; exits 0; exits 0; exits 0; exits 0].
Definition status_fails : scripted :=
  [says "" "fatal: not a git repository" 128].
Definition add_fails : scripted :=
  [exits 0; exits 1].
Definition nothing_to_commit : scripted :=
  [exits 0; exits 0; says "nothing to commit, working tree clean" "" 1;
   exits 0; exits 0].
Definition push_fails : scripted :=
  [exits 0; exits 0; exits 0; says "" "rejected" 1].
Definition listing_fails : scripted :=
  [exits 0; exits 0; exits 0; exits 0; faults "gh: command not found"].
Definition listing_times_out : scripted :=
  [exits 0; exits 0; exits 0; exits 0; times_out list_cmd 30].

(** ** What is printed *)

(** The texts handed to [print], in order, one for each call.  A text is
    written as it is: one that holds newlines (the echo of what a child
    wrote) makes several lines on the console, and is one element here. *)
Fixpoint printed (tr : list event) : list string :=
  match tr with
  | [] => []
  | Print line :: tr' => line :: printed tr'
  | _ :: tr' => printed tr'
  end.

(** How the texts printed by the runner begin. *)
Definition runner_tags : list string :=
  [ "["; "STDOUT: "; "STDERR: "; "✅ Command succeeded: ";
    "❌ Command failed with code "; "⏰ Command timed out after ";
    "💥 Command error: " ].

Definition tagged (line : string) : Prop :=
  exists tag rest : string, In tag runner_tags /\ line = tag ++ rest.

Section Logging.

Context {OS : Type} {P : Platform OS}.

(** [produces m os tr r os']: as [yields], with the whole trace. *)
Definition produces {A : Type} (m : M OS A) (os : OS)
    (tr : list event) (r : exception + A) (os' : OS) : Prop :=
  result (m os) = r /\ trace (m os) = tr /\ final (m os) = os'.

End Logging.

(** A system on which the next child times out. *)
Definition listing_times_out_now : scripted := [times_out list_cmd 30].

(** ** The runner with a console that can fail

    The embedding above takes two things for granted: that [print]
    succeeds, and that whatever [subprocess.run] raises is an instance of
    [Exception].  Neither is guaranteed by the source: the [print] of the
    command line comes before the [try], the [print]s of the two handlers
    are inside no [try] at all, and [except Exception] lets the rest of
    [BaseException] (a keyboard interrupt) through.  This module embeds
    [run_command_with_timeout] once more without the two assumptions. *)

Module Fallible.

(** What Python can raise: an instance of [Exception], or one of the
    other instances of [BaseException] ([KeyboardInterrupt],
    [SystemExit]). *)
Inductive raised : Type :=
| Ordinary (e : exception)
| Interrupt (name : string).

Inductive event : Type :=
| Print (line : string) (r : raised + unit)
| Run (cmd : string) (timeout : Z) (r : raised + CompletedProcess).

Class System (OS : Type) : Type := {
  subprocess_run : string -> Z -> OS -> (raised + CompletedProcess) * OS;
  builtin_print : string -> OS -> (raised + unit) * OS;
  strftime_now : OS -> string
}.

Record outcome (OS A : Type) : Type := mkOutcome {
  trace : list event;
  result : raised + A;
  final : OS
}.
Arguments mkOutcome {OS A} _ _ _.
Arguments trace {OS A} _.
Arguments result {OS A} _.
Arguments final {OS A} _.

Definition M (OS A : Type) : Type := OS -> outcome OS A.

Definition ret {OS A} (a : A) : M OS A :=
  fun os => mkOutcome [] (inr a) os.

Definition bind {OS A B} (m : M OS A) (k : A -> M OS B) : M OS B :=
  fun os =>
    let o := m os in
    match result o with
    | inl e => mkOutcome (trace o) (inl e) (final o)
    | inr a =>
        let o' := k a (final o) in
        mkOutcome (trace o ++ trace o') (result o') (final o')
    end.

(** [try: body / except ...]: [clauses e] is the body of the first
    [except] clause that matches [e], if one does; an exception no clause
    matches goes on. *)
Definition try_except {OS A} (body : M OS A)
    (clauses : raised -> option (M OS A)) : M OS A :=
  fun os =>
    let o := body os in
    match result o with
    | inl e =>
        match clauses e with
        | Some handler =>
            let o' := handler (final o) in
            mkOutcome (trace o ++ trace o') (result o') (final o')
        | None => o
        end
    | inr a => o
    end.

Declare Scope fallible_scope.
Delimit Scope fallible_scope with fallible.
Notation "x <- m ;; k" := (bind m (fun x => k))
  (at level 61, m at next level, right associativity) : fallible_scope.
Notation "m ;; k" := (bind m (fun _ => k))
  (at level 61, right associativity) : fallible_scope.

Section Runner.

Context {OS : Type} {S : System OS}.

Definition print (line : string) : M OS unit :=
  fun os =>
    let (r, os') := builtin_print line os in
    mkOutcome [Print line r] r os'.

Definition run (cmd : string) (timeout : Z) : M OS CompletedProcess :=
  fun os =>
    let (r, os') := subprocess_run cmd timeout os in
    mkOutcome [Run cmd timeout r] r os'.

Definition now : M OS string :=
  fun os => mkOutcome [] (inr (strftime_now os)) os.

Definition when (b : bool) (m : M OS unit) : M OS unit :=
  if b then m else ret tt.

Definition run_command_with_timeout (cmd : string) (timeout : Z) : M OS bool :=
  (t <- now ;;
   print ("[" ++ t ++ "] Running: " ++ cmd) ;;
   try_except
     (result <- run cmd timeout ;;
      when (truthy (stdout result)) (print ("STDOUT: " ++ stdout result)) ;;
      when (truthy (stderr result)) (print ("STDERR: " ++ stderr result)) ;;
      if returncode result =? 0 then
        print ("✅ Command succeeded: " ++ cmd) ;;
        ret true
      else
        print ("❌ Command failed with code " ++ str (returncode result)
               ++ ": " ++ cmd) ;;
        ret false)
     (fun e =>
        match e with
        | Ordinary (TimeoutExpired _ _) =>
            Some (print ("⏰ Command timed out after " ++ str timeout
                         ++ "s: " ++ cmd) ;;
                  ret false)
        | Ordinary (Exception msg) =>
            Some (print ("💥 Command error: " ++ msg) ;;
                  ret false)
        | Interrupt _ => None
        end))%fallible.

End Runner.






(** [ends m os r os']: started in [os], [m] ends in [os'] with [r]. *)
Definition ends {OS A : Type} (m : M OS A) (os : OS)
    (r : raised + A) (os' : OS) : Prop :=
  result (m os) = r /\ final (m os) = os'.

(** Systems whose children answer from a prepared list. *)
Definition scripted : Type := list (raised + CompletedProcess).





End Fallible.

(** Turning a platform of the first embedding into a system: its console
    takes every line and its [subprocess.run] raises what it raised. *)
Definition of_platform {OS : Type} (P : Platform OS) : Fallible.System OS := {|
  Fallible.subprocess_run := fun cmd t os =>
    (match fst (subprocess_run cmd t os) with
     | inl e => inl (Fallible.Ordinary e)
     | inr p => inr p
     end,
     snd (subprocess_run cmd t os));
  Fallible.builtin_print := fun _ os => (inr tt, os);
  Fallible.strftime_now := strftime_now
|}.

(** * Properties *)

Section Runs.

Context {OS : Type} {P : Platform OS}.

Lemma visible_app (l1 l2 : list event) :
  visible (l1 ++ l2) = (visible l1 ++ visible l2)%list.
Proof. apply filter_app. Qed.

Lemma yields_ret {A : Type} (a : A) (os : OS) :
  yields (ret a) os [] (inr a) os.
Proof. repeat split. Qed.

Lemma yields_print (line : string) (os : OS) :
  yields (print line) os [] (inr tt) os.
Proof. repeat split. Qed.

Lemma yields_getcwd (os : OS) :
  yields getcwd os [] (inr (os_getcwd os)) os.
Proof. repeat split. Qed.

Lemma yields_sleep (n : Z) (os : OS) :
  yields (sleep n) os [Sleep n] (inr tt) (time_sleep n os).
Proof. repeat split. Qed.

Lemma yields_chdir (path : string) (os : OS) :
  yields (chdir path) os [Chdir path (fst (os_chdir path os))]
         (fst (os_chdir path os)) (snd (os_chdir path os)).
Proof. unfold yields, chdir. destruct (os_chdir path os); repeat split. Qed.

Lemma yields_when (b : bool) (line : string) (os : OS) :
  yields (when b (print line)) os [] (inr tt) os.
Proof. destruct b; repeat split. Qed.

Lemma yields_bind {A B : Type} (m : M OS A) (k : A -> M OS B)
    (os os1 os2 : OS) (a : A) (v1 v2 : list event) (r : exception + B) :
  yields m os v1 (inr a) os1 ->
  yields (k a) os1 v2 r os2 ->
  yields (bind m k) os (v1 ++ v2) r os2.
Proof.
  intros (Hr & Hv & Hf) (Hr' & Hv' & Hf'). unfold yields, bind.
  rewrite Hr, Hf. cbn [trace result final].
  rewrite visible_app, Hv, Hv'. auto.
Qed.

Lemma yields_bind_raise {A B : Type} (m : M OS A) (k : A -> M OS B)
    (os os1 : OS) (e : exception) (v1 : list event) :
  yields m os v1 (inl e) os1 ->
  yields (bind m k) os v1 (inl e) os1.
Proof.
  intros (Hr & Hv & Hf). unfold yields, bind. rewrite Hr. auto.
Qed.

Lemma yields_vis {A : Type} (m : M OS A) (os os' : OS)
    (v v' : list event) (r : exception + A) :
  yields m os v r os' -> v = v' -> yields m os v' r os'.
Proof. intros Hy <-. exact Hy. Qed.

Ltac primitive :=
  first [ apply yields_print | apply yields_getcwd | apply yields_sleep
        | apply yields_when | apply yields_ret
        | eassumption
        | match goal with
          | |- yields (if ?b then _ else _) _ _ _ _ =>
              destruct b; apply yields_print
          end ].

Ltac drive :=
  repeat match goal with
    | |- yields (if negb ?b then _ else _) _ _ _ _ =>
        match goal with E : b = _ |- _ => rewrite E; cbn [negb] end
    | |- yields (if ?b then _ else _) _ _ _ _ => destruct b
    | |- yields (bind _ _) _ _ _ _ =>
        first [ eapply yields_bind; [ solve [ primitive ] | cbv beta iota ]
              | eapply yields_bind_raise; eassumption ]
    | |- yields _ _ _ _ _ => solve [ primitive ]
    end.

Lemma yields_self {A : Type} (m : M OS A) (os : OS) :
  yields m os (visible (trace (m os))) (result (m os)) (final (m os)).
Proof. repeat split. Qed.

Lemma yields_now (os : OS) :
  yields now os [] (inr (strftime_now os)) os.
Proof. repeat split. Qed.

Lemma yields_run (cmd : string) (t : Z) (os : OS) :
  yields (run cmd t) os [Run cmd t (fst (subprocess_run cmd t os))]
         (fst (subprocess_run cmd t os)) (snd (subprocess_run cmd t os)).
Proof. unfold yields, run. destruct (subprocess_run cmd t os); repeat split. Qed.

Lemma yields_try {A : Type} (body : M OS A) (handler : exception -> M OS A)
    (os os' : OS) (v : list event) (a : A) :
  yields body os v (inr a) os' ->
  yields (try_except body handler) os v (inr a) os'.
Proof.
  intros (Hr & Hv & Hf). unfold yields, try_except. rewrite Hr. auto.
Qed.

Lemma yields_except {A : Type} (body : M OS A) (handler : exception -> M OS A)
    (os os1 os2 : OS) (v1 v2 : list event) (e : exception)
    (r : exception + A) :
  yields body os v1 (inl e) os1 ->
  yields (handler e) os1 v2 r os2 ->
  yields (try_except body handler) os (v1 ++ v2) r os2.
Proof.
  intros (Hr & Hv & Hf) (Hr' & Hv' & Hf'). unfold yields, try_except.
  rewrite Hr, Hf. cbn [trace result final].
  rewrite visible_app, Hv, Hv'. auto.
Qed.

Lemma yields_runner (cmd : string) (t : Z) (os : OS) :
  yields (run_command_with_timeout cmd t) os
         [Run cmd t (fst (subprocess_run cmd t os))]
         (inr (succeeded (fst (subprocess_run cmd t os))))
         (snd (subprocess_run cmd t os)).
Proof.
  unfold run_command_with_timeout.
  pose proof (yields_run cmd t os) as Hrun.
  destruct (subprocess_run cmd t os) as [r os']. cbn [fst snd] in *.
  destruct r as [e|p]; cbn [succeeded]; eapply yields_vis.
  - eapply yields_bind; [ apply yields_now | cbv beta ].
    eapply yields_bind; [ apply yields_print | cbv beta ].
    eapply yields_except; [ apply yields_bind_raise, Hrun | ].
    destruct e; drive.
  - reflexivity.
  - eapply yields_bind; [ apply yields_now | cbv beta ].
    eapply yields_bind; [ apply yields_print | cbv beta ].
    apply yields_try.
    eapply yields_bind; [ exact Hrun | cbv beta ]. drive.
  - reflexivity.
Qed.

Ltac run_main :=
  eapply yields_vis;
  [ repeat first [ eapply yields_bind; [ apply yields_runner | cbv beta ]
                 | progress drive ]
  | reflexivity ].

Lemma main_cases (os : OS) :
  let c := os_chdir working_directory os in
  let s1 := subprocess_run status_cmd 30 (snd c) in
  let s2 := subprocess_run add_cmd 60 (snd s1) in
  let s3 := subprocess_run commit_cmd 60 (snd s2) in
  let s4 := subprocess_run push_cmd 120 (snd s3) in
  let s5 := subprocess_run list_cmd 30 (time_sleep 10 (snd s4)) in
  let e0 := Chdir working_directory (fst c) in
  let e1 := Run status_cmd 30 (fst s1) in
  let e2 := Run add_cmd 60 (fst s2) in
  let e3 := Run commit_cmd 60 (fst s3) in
  let e4 := Run push_cmd 120 (fst s4) in
  let e5 := Run list_cmd 30 (fst s5) in
  match fst c with
  | inl e => yields main os [e0] (inl e) (snd c)
  | inr _ =>
      if negb (succeeded (fst s1)) then
        yields main os [e0; e1] (inr false) (snd s1)
      else if negb (succeeded (fst s2)) then
        yields main os [e0; e1; e2] (inr false) (snd s2)
      else if negb (succeeded (fst s4)) then
        yields main os [e0; e1; e2; e3; e4] (inr false) (snd s4)
      else
        yields main os [e0; e1; e2; e3; e4; Sleep 10; e5] (inr true) (snd s5)
  end.
Proof.
  cbv zeta. unfold main. generalize commit_cmd; intros cc.
  pose proof (yields_chdir working_directory os) as Hc.
  destruct (os_chdir working_directory os) as [r0 os0].
  cbn [fst snd] in *.
  destruct r0 as [e|[]]; [ run_main | ].
  destruct (succeeded (fst (subprocess_run status_cmd 30 os0))) eqn:E1;
    cbn [negb]; [ | run_main ].
  destruct (succeeded (fst (subprocess_run add_cmd 60 _))) eqn:E2;
    cbn [negb]; [ | run_main ].
  destruct (succeeded (fst (subprocess_run push_cmd 120 _))) eqn:E4;
    cbn [negb]; run_main.
Qed.

(** The [__main__] block adds console lines only, and turns the boolean
    of [main] into an exit status. *)
Lemma script_cases (os : OS) :
  yields script os (visible (trace (main os)))
         match result (main os) with
         | inl e => inl e
         | inr b => inr (if b then 0 else 1)
         end
         (final (main os)).
Proof.
  unfold script. pose proof (yields_self main os) as Hm.
  destruct (result (main os)) as [e|[|]];
    (eapply yields_vis;
       [ drive | cbn [app]; rewrite ?app_nil_r; reflexivity ]).
Qed.

Lemma exit_status_script (os : OS) :
  exit_status (script os) =
  match result (main os) with inr true => 0 | _ => 1 end.
Proof.
  unfold exit_status. destruct (script_cases os) as (-> & _).
  destruct (result (main os)) as [e|[|]]; reflexivity.
Qed.

Lemma step_outcome_visible (cmd : string) (tr : list event) :
  step_outcome cmd (visible tr) = step_outcome cmd tr.
Proof.
  induction tr as [|[line|path r|c t r|n] tr IH]; cbn; auto.
  destruct (String.eqb c cmd); auto.
Qed.

Lemma actions_visible (tr : list event) :
  actions (visible tr) = actions tr.
Proof.
  induction tr as [|[line|path r|c t r|n] tr IH]; [ reflexivity | .. ];
    unfold visible in *; cbn [filter is_print negb actions];
    rewrite ?IH; reflexivity.
Qed.

Lemma invocations_visible (tr : list event) :
  invocations (visible tr) = invocations tr.
Proof.
  induction tr as [|[line|path r|c t r|n] tr IH]; [ reflexivity | .. ];
    unfold visible in *; cbn [filter is_print negb invocations];
    rewrite ?IH; reflexivity.
Qed.

Lemma In_run_visible (cmd : string) (t : Z) (r : exception + CompletedProcess)
    (tr : list event) :
  In (Run cmd t r) tr -> In (Run cmd t r) (visible tr).
Proof.
  intros Hin. apply filter_In. split; [ exact Hin | reflexivity ].
Qed.

Lemma threads_visible (tr : list event) :
  forall os os' : OS, threads os (visible tr) os' -> threads os tr os'.
Proof.
  induction tr as [|e tr IH]; intros os os' Ht; [ exact Ht | ].
  destruct e as [line|path r|c t r|n]; cbn in Ht.
  - apply threads_print, IH, Ht.
  - inversion Ht; subst. apply threads_chdir, IH. assumption.
  - inversion Ht; subst. apply threads_run, IH. assumption.
  - inversion Ht; subst. apply threads_sleep, IH. assumption.
Qed.

Ltac split_if Hm E :=
  match type of Hm with
  | if negb ?b then _ else _ => destruct b eqn:E; cbn [negb] in Hm
  end.

(** The five ways a run of [main] can go. *)
Ltac main_analysis os :=
  let Hm := fresh "Hm" in
  pose proof (main_cases os) as Hm; cbv zeta in Hm;
  destruct (fst (os_chdir working_directory os)) as [?e|?u] eqn:Ec;
  [ | split_if Hm ipattern:(E1);
      [ split_if Hm ipattern:(E2); [ split_if Hm ipattern:(E4) | ] | ] ];
  destruct Hm as (Hr & Hv & Hf).

Ltac eval_eqb :=
  repeat match goal with
    | |- context [String.eqb ?a ?b] =>
        let v := eval vm_compute in (String.eqb a b) in
        change (String.eqb a b) with v
    | Hx : context [String.eqb ?a ?b] |- _ =>
        let v := eval vm_compute in (String.eqb a b) in
        change (String.eqb a b) with v in Hx
    end.

Ltac on_trace Hv Hr :=
  repeat match goal with
    | |- context [step_outcome ?c (trace (main ?os))] =>
        rewrite <- (step_outcome_visible c (trace (main os))), Hv
    end;
  repeat match goal with
    | |- context [actions (trace (main ?os))] =>
        rewrite <- (actions_visible (trace (main os))), Hv
    | |- context [invocations (trace (main ?os))] =>
        rewrite <- (invocations_visible (trace (main os))), Hv
    end;
  rewrite ?exit_status_script, ?Hr;
  cbn [step_outcome actions invocations]; eval_eqb; cbv iota;
  repeat match goal with
    | E : succeeded ?x = _ |- context [succeeded ?x] => rewrite E
    end.

Ltac finish := repeat split; intros; intuition (discriminate || congruence).

(** C1: the process ends with status 0 exactly when [main] returns
    [True], which is exactly when the push step was run and succeeded;
    it ends with status 1 whenever the status check, the staging or the
    push step fails; no other status occurs. *)
Theorem exit_status_reflects_push (os : OS) :
  let tr := trace (main os) in
  (exit_status (script os) = 0 <-> result (main os) = inr true) /\
  (result (main os) = inr true <-> step_outcome push_cmd tr = Some true) /\
  (step_outcome status_cmd tr = Some false \/
   step_outcome add_cmd tr = Some false \/
   step_outcome push_cmd tr = Some false ->
   exit_status (script os) = 1) /\
  (exit_status (script os) = 0 \/ exit_status (script os) = 1).
Proof.
  cbv zeta. main_analysis os; on_trace Hv Hr; finish.
Qed.


(** C3: when the status check fails, [main] returns [False] and the
    status check is the only command it has invoked: nothing is staged,
    committed, pushed or listed. *)
Theorem status_failure_aborts (os : OS) :
  let tr := trace (main os) in
  step_outcome status_cmd tr = Some false ->
  result (main os) = inr false /\
  invocations tr = [status_cmd] /\
  step_outcome add_cmd tr = None /\
  step_outcome commit_cmd tr = None /\
  step_outcome push_cmd tr = None /\
  step_outcome list_cmd tr = None.
Proof.
  cbv zeta. main_analysis os; on_trace Hv Hr; finish.
Qed.

(** C4: a failed commit step does not stop the sequence: the push step is
    still run, and if it succeeds [main] returns [True] and the process
    ends with status 0. *)
Theorem commit_failure_is_advisory (os : OS) :
  let tr := trace (main os) in
  step_outcome commit_cmd tr = Some false ->
  step_outcome push_cmd tr <> None /\
  (step_outcome push_cmd tr = Some true ->
   result (main os) = inr true /\ exit_status (script os) = 0).
Proof.
  cbv zeta. main_analysis os; on_trace Hv Hr; finish.
Qed.

(** C5: status, staging and commit succeed and the push fails: [main]
    returns [False], the process ends with status 1, and neither the pause
    nor the listing of pipeline runs takes place. *)
Theorem push_failure_scenario (os : OS) :
  let tr := trace (main os) in
  step_outcome status_cmd tr = Some true ->
  step_outcome add_cmd tr = Some true ->
  step_outcome commit_cmd tr = Some true ->
  step_outcome push_cmd tr = Some false ->
  result (main os) = inr false /\
  exit_status (script os) = 1 /\
  step_outcome list_cmd tr = None /\
  invocations tr = [status_cmd; add_cmd; commit_cmd; push_cmd].
Proof.
  cbv zeta. main_analysis os; on_trace Hv Hr; finish.
Qed.

(** C6: once the push step has succeeded, [main] returns [True] and the
    process ends with status 0, whichever way the listing of pipeline runs
    goes; that listing is attempted. *)
Theorem push_success_decides (os : OS) (listing : option bool) :
  let tr := trace (main os) in
  step_outcome push_cmd tr = Some true ->
  step_outcome list_cmd tr = listing ->
  result (main os) = inr true /\
  exit_status (script os) = 0 /\
  listing <> None.
Proof.
  cbv zeta. main_analysis os; on_trace Hv Hr; finish.
Qed.

(** C7: what [main] does, console lines apart, is an initial part of the
    fixed schedule (status check, staging, commit, push, a pause of 10
    seconds, listing of pipeline runs) and the whole of it when [main]
    returns [True]; the events happen one after the other, each from the
    state in which the previous one ended. *)
Theorem steps_follow_schedule (os : OS) :
  let o := main os in
  (exists rest, schedule = (actions (trace o) ++ rest)%list) /\
  (result o = inr true -> actions (trace o) = schedule) /\
  threads os (trace o) (final o).
Proof.
  cbv zeta. split; [ | split ].
  - main_analysis os; on_trace Hv Hr; eexists; reflexivity.
  - main_analysis os; on_trace Hv Hr; intros; (discriminate || reflexivity).
  - apply threads_visible.
    main_analysis os; rewrite Hv, Hf, <- Ec; repeat constructor.
Qed.

(** C8: each command [main] hands to the runner carries the timeout of its
    step: 30 s for the status check, 60 s for staging, 60 s for the commit,
    120 s for the push and 30 s for the listing; all lie between 30 and
    300 seconds. *)
Theorem step_timeouts (os : OS) (cmd : string) (t : Z)
    (r : exception + CompletedProcess) :
  In (Run cmd t r) (trace (main os)) ->
  30 <= t <= 300 /\
  In (cmd, t) [ (status_cmd, 30); (add_cmd, 60); (commit_cmd, 60);
                (push_cmd, 120); (list_cmd, 30) ].
Proof.
  intros Hin. apply In_run_visible in Hin. revert Hin.
  main_analysis os; rewrite Hv; cbn [In]; intros Hin;
    repeat match goal with
      | Hx : _ \/ _ |- _ => destruct Hx as [Hx|Hx]
      | Hx : False |- _ => destruct Hx
      | Hx : _ = Run _ _ _ |- _ => inversion Hx; subst; clear Hx
      end;
    (split; [ lia | cbn [In]; tauto ]).
Qed.

(** ** Further properties of the runner and of the driver *)

Ltac differ :=
  match goal with
  | Hx : ?a = ?b |- False =>
      apply (proj1 (String.eqb_neq a b));
      [ vm_compute; reflexivity | exact Hx ]
  end.

Ltac distinct_cmds :=
  repeat (apply NoDup_cons; [ cbn [In]; intuition (try differ) | ]);
  apply NoDup_nil.

(** X1: the runner spawns the child once, with the command line
    and the timeout it was given, whatever the child does: there is no
    second attempt after a failure, a timeout or a fault, and the runner
    touches the system through that one call only. *)
Theorem runner_spawns_once (cmd : string) (t : Z) (os : OS) :
  let o := run_command_with_timeout cmd t os in
  visible (trace o) = [Run cmd t (fst (subprocess_run cmd t os))] /\
  actions (trace o) = [Invoke cmd t] /\
  final o = snd (subprocess_run cmd t os).
Proof.
  cbv zeta. destruct (yields_runner cmd t os) as (_ & Hv & Hf).
  rewrite <- actions_visible, Hv. auto.
Qed.

(** X2: when [os.chdir] raises, the exception leaves [main] and the
    [__main__] block uncaught: no command is run, nothing sleeps, and the
    process ends with status 1. *)
Theorem chdir_failure_propagates (os : OS) (e : exception) :
  fst (os_chdir working_directory os) = inl e ->
  result (main os) = inl e /\
  result (script os) = inl e /\
  exit_status (script os) = 1 /\
  actions (trace (script os)) = [] /\
  final (script os) = snd (os_chdir working_directory os).
Proof.
  intros Hc. pose proof (main_cases os) as Hm. cbv zeta in Hm.
  rewrite Hc in Hm. destruct Hm as (Hr & Hv & Hf).
  destruct (script_cases os) as (Hsr & Hsv & Hsf).
  rewrite Hr in Hsr. rewrite exit_status_script, Hr, Hsr, Hsf, Hf.
  rewrite <- actions_visible, Hsv, Hv. auto.
Qed.

(** X3: when staging fails, [main] returns [False] having run the status
    check and the staging only: nothing is committed, pushed or listed,
    and the process ends with status 1. *)
Theorem staging_failure_aborts (os : OS) :
  let tr := trace (main os) in
  step_outcome add_cmd tr = Some false ->
  result (main os) = inr false /\
  exit_status (script os) = 1 /\
  invocations tr = [status_cmd; add_cmd] /\
  step_outcome commit_cmd tr = None /\
  step_outcome push_cmd tr = None /\
  step_outcome list_cmd tr = None.
Proof.
  cbv zeta. main_analysis os; on_trace Hv Hr; finish.
Qed.

(** X4: no command is run twice, and [main] runs none, one, two, four or
    all five of them; it runs all five exactly when it returns [True].
    It never stops after the commit: three commands are never what a run
    amounts to. *)
Theorem commands_run_at_most_once (os : OS) :
  let ran := invocations (trace (main os)) in
  NoDup ran /\
  In (length ran) [0; 1; 2; 4; 5]%nat /\
  (length ran = 5%nat <-> result (main os) = inr true).
Proof.
  cbv zeta. main_analysis os; on_trace Hv Hr;
    (split; [ distinct_cmds | ]); cbn [length In];
    (split; [ tauto | split; intros; discriminate || reflexivity ]).
Qed.

(** X5: each step is attempted exactly when the step it depends on has
    succeeded: staging after the status check, commit and push after
    staging (the commit's own outcome plays no part), the pause and the
    listing after the push. *)
Theorem steps_are_gated (os : OS) :
  let tr := trace (main os) in
  (step_outcome add_cmd tr <> None <-> step_outcome status_cmd tr = Some true) /\
  (step_outcome commit_cmd tr <> None <-> step_outcome add_cmd tr = Some true) /\
  (step_outcome push_cmd tr <> None <-> step_outcome add_cmd tr = Some true) /\
  (step_outcome list_cmd tr <> None <-> step_outcome push_cmd tr = Some true) /\
  (In (Pause 10) (actions tr) <-> step_outcome push_cmd tr = Some true).
Proof.
  cbv zeta. main_analysis os; on_trace Hv Hr; cbn [In];
    repeat split; intros; try congruence; try discriminate;
    intuition (discriminate || congruence).
Qed.

(** X6: [main] returns [True] exactly when the status check, the staging
    and the push have all been run and have all succeeded. *)
Theorem success_iff_fatal_steps_succeed (os : OS) :
  let tr := trace (main os) in
  result (main os) = inr true <->
  step_outcome status_cmd tr = Some true /\
  step_outcome add_cmd tr = Some true /\
  step_outcome push_cmd tr = Some true.
Proof.
  cbv zeta. main_analysis os; on_trace Hv Hr; finish.
Qed.

(** X7: the first thing [main] does to the system is to change to the
    hard-coded working directory, from the initial state; it does so once,
    and every command comes after it. *)
Theorem chdir_comes_first (os : OS) :
  exists rest : list event,
    visible (trace (main os)) =
      Chdir working_directory (fst (os_chdir working_directory os)) :: rest /\
    Forall (fun e => match e with Chdir _ _ => False | _ => True end) rest.
Proof.
  main_analysis os; rewrite Hv, <- Ec; eexists; (split; [ reflexivity | ]);
    repeat constructor.
Qed.

(** X8: the [__main__] block runs no command of its own and does not
    sleep: what the script does to the system is what [main] did. *)
Theorem script_adds_console_lines_only (os : OS) :
  visible (trace (script os)) = visible (trace (main os)) /\
  actions (trace (script os)) = actions (trace (main os)) /\
  final (script os) = final (main os).
Proof.
  destruct (script_cases os) as (_ & Hv & Hf).
  rewrite <- (actions_visible (trace (script os))), Hv, actions_visible. auto.
Qed.

(** ** What a run prints *)

Lemma printed_app (l1 l2 : list event) :
  printed (l1 ++ l2) = (printed l1 ++ printed l2)%list.
Proof.
  induction l1 as [|[line|path r|c t r|n] l1 IH]; cbn [printed app];
    rewrite ?IH; reflexivity.
Qed.

Lemma produces_ret {A : Type} (a : A) (os : OS) :
  produces (ret a) os [] (inr a) os.
Proof. repeat split. Qed.

Lemma produces_print (line : string) (os : OS) :
  produces (print line) os [Print line] (inr tt) os.
Proof. repeat split. Qed.

Lemma produces_getcwd (os : OS) :
  produces getcwd os [] (inr (os_getcwd os)) os.
Proof. repeat split. Qed.

Lemma produces_now (os : OS) :
  produces now os [] (inr (strftime_now os)) os.
Proof. repeat split. Qed.

Lemma produces_sleep (n : Z) (os : OS) :
  produces (sleep n) os [Sleep n] (inr tt) (time_sleep n os).
Proof. repeat split. Qed.

Lemma produces_chdir (path : string) (os : OS) :
  produces (chdir path) os [Chdir path (fst (os_chdir path os))]
           (fst (os_chdir path os)) (snd (os_chdir path os)).
Proof. unfold produces, chdir. destruct (os_chdir path os); repeat split. Qed.

Lemma produces_run (cmd : string) (t : Z) (os : OS) :
  produces (run cmd t) os [Run cmd t (fst (subprocess_run cmd t os))]
           (fst (subprocess_run cmd t os)) (snd (subprocess_run cmd t os)).
Proof.
  unfold produces, run. destruct (subprocess_run cmd t os); repeat split.
Qed.

Lemma produces_when (b : bool) (line : string) (os : OS) :
  produces (when b (print line)) os (if b then [Print line] else [])
           (inr tt) os.
Proof. destruct b; repeat split. Qed.

Lemma produces_bind {A B : Type} (m : M OS A) (k : A -> M OS B)
    (os os1 os2 : OS) (a : A) (t1 t2 : list event) (r : exception + B) :
  produces m os t1 (inr a) os1 ->
  produces (k a) os1 t2 r os2 ->
  produces (bind m k) os (t1 ++ t2) r os2.
Proof.
  intros (Hr & Ht & Hf) (Hr' & Ht' & Hf'). unfold produces, bind.
  rewrite Hr, Hf, Ht. cbn [trace result final]. rewrite Ht'. auto.
Qed.

Lemma produces_bind_raise {A B : Type} (m : M OS A) (k : A -> M OS B)
    (os os1 : OS) (e : exception) (t1 : list event) :
  produces m os t1 (inl e) os1 ->
  produces (bind m k) os t1 (inl e) os1.
Proof.
  intros (Hr & Ht & Hf). unfold produces, bind. rewrite Hr. auto.
Qed.

Lemma produces_try {A : Type} (body : M OS A) (handler : exception -> M OS A)
    (os os' : OS) (tr : list event) (a : A) :
  produces body os tr (inr a) os' ->
  produces (try_except body handler) os tr (inr a) os'.
Proof.
  intros (Hr & Ht & Hf). unfold produces, try_except. rewrite Hr. auto.
Qed.

Lemma produces_except {A : Type} (body : M OS A)
    (handler : exception -> M OS A) (os os1 os2 : OS)
    (t1 t2 : list event) (e : exception) (r : exception + A) :
  produces body os t1 (inl e) os1 ->
  produces (handler e) os1 t2 r os2 ->
  produces (try_except body handler) os (t1 ++ t2) r os2.
Proof.
  intros (Hr & Ht & Hf) (Hr' & Ht' & Hf'). unfold produces, try_except.
  rewrite Hr, Hf, Ht. cbn [trace result final]. rewrite Ht'. auto.
Qed.

Lemma produces_trace {A : Type} (m : M OS A) (os os' : OS)
    (tr tr' : list event) (r : exception + A) :
  produces m os tr r os' -> tr = tr' -> produces m os tr' r os'.
Proof. intros Hp <-. exact Hp. Qed.

Lemma produces_runner (cmd : string) (t : Z) (os : OS) :
  produces (run_command_with_timeout cmd t) os
           (trace (run_command_with_timeout cmd t os))
           (inr (succeeded (fst (subprocess_run cmd t os))))
           (snd (subprocess_run cmd t os)).
Proof.
  destruct (yields_runner cmd t os) as (Hr & _ & Hf). repeat split; auto.
Qed.

Lemma produces_choice (b : bool) (l1 l2 : string) (os : OS) :
  produces (if b then print l1 else print l2) os
           [Print (if b then l1 else l2)] (inr tt) os.
Proof. destruct b; repeat split. Qed.

Ltac emit :=
  first [ apply produces_print | apply produces_getcwd | apply produces_now
        | apply produces_sleep | apply produces_when | apply produces_ret
        | apply produces_runner | apply produces_choice | eassumption ].

Ltac log :=
  repeat match goal with
    | |- produces (if negb ?b then _ else _) _ _ _ _ =>
        match goal with E : b = _ |- _ => rewrite E; cbn [negb] end
    | |- produces (if ?b then _ else _) _ _ _ _ =>
        match goal with E : b = _ |- _ => rewrite E end
    | |- produces (bind _ _) _ _ _ _ =>
        first [ eapply produces_bind; [ solve [ emit ] | cbv beta iota ]
              | eapply produces_bind_raise; eassumption ]
    | |- produces _ _ _ _ _ => solve [ emit ]
    end.

(** The trace of the runner, by what [subprocess.run] did. *)
Lemma runner_trace (cmd : string) (t : Z) (os : OS) :
  trace (run_command_with_timeout cmd t os) =
  (Print ("[" ++ strftime_now os ++ "] Running: " ++ cmd)
   :: Run cmd t (fst (subprocess_run cmd t os))
   :: match fst (subprocess_run cmd t os) with
      | inr p =>
          (if truthy (stdout p) then [Print ("STDOUT: " ++ stdout p)] else [])
          ++ (if truthy (stderr p) then [Print ("STDERR: " ++ stderr p)]
              else [])
          ++ [Print (if returncode p =? 0
                     then "✅ Command succeeded: " ++ cmd
                     else "❌ Command failed with code "
                          ++ str (returncode p) ++ ": " ++ cmd)]
      | inl (TimeoutExpired _ _) =>
          [Print ("⏰ Command timed out after " ++ str t ++ "s: " ++ cmd)]
      | inl (Exception msg) =>
          [Print ("💥 Command error: " ++ msg)]
      end)%list.
Proof.
  pose proof (produces_run cmd t os) as Hrun.
  destruct (fst (subprocess_run cmd t os)) as [[c t'|msg]|p];
    [ | | destruct (returncode p =? 0) eqn:Erc ].
  all: eassert (Hp : produces (run_command_with_timeout cmd t) os _ _ _);
    [ unfold run_command_with_timeout;
      eapply produces_bind; [ apply produces_now | cbv beta ];
      eapply produces_bind; [ apply produces_print | cbv beta ];
      first [ eapply produces_except;
              [ apply produces_bind_raise, Hrun | cbv beta iota; log ]
            | apply produces_try; log ]
    | destruct Hp as (_ & Ht & _); rewrite Ht; reflexivity ].
Qed.

(** Every line the runner writes begins with one of its tags. *)
Lemma runner_lines_tagged (cmd : string) (t : Z) (os : OS) :
  Forall tagged (printed (trace (run_command_with_timeout cmd t os))).
Proof.
  rewrite runner_trace. cbn [printed].
  constructor.
  { exists "[", (strftime_now os ++ "] Running: " ++ cmd).
    split; [ cbn; tauto | reflexivity ]. }
  destruct (fst (subprocess_run cmd t os)) as [[c t'|msg]|p]; cbn [printed].
  - constructor; [ | constructor ].
    exists "⏰ Command timed out after ", (str t ++ "s: " ++ cmd).
    split; [ cbn; tauto | reflexivity ].
  - constructor; [ | constructor ].
    exists "💥 Command error: ", msg.
    split; [ cbn; tauto | reflexivity ].
  - rewrite !printed_app.
    apply Forall_app; split; [ | apply Forall_app; split ].
    + destruct (truthy (stdout p)); cbn [printed]; constructor;
        [ | constructor ].
      exists "STDOUT: ", (stdout p). split; [ cbn; tauto | reflexivity ].
    + destruct (truthy (stderr p)); cbn [printed]; constructor;
        [ | constructor ].
      exists "STDERR: ", (stderr p). split; [ cbn; tauto | reflexivity ].
    + cbn [printed]. constructor; [ | constructor ].
      destruct (returncode p =? 0).
      * exists "✅ Command succeeded: ", cmd.
        split; [ cbn; tauto | reflexivity ].
      * exists "❌ Command failed with code ",
          (str (returncode p) ++ ": " ++ cmd).
        split; [ cbn; tauto | reflexivity ].
Qed.

Lemma runner_never_prints (w cmd : string) (t : Z) (os : OS) :
  ~ tagged w ->
  ~ In w (printed (trace (run_command_with_timeout cmd t os))).
Proof.
  intros Hw Hin.
  apply Hw. exact (proj1 (Forall_forall _ _) (runner_lines_tagged cmd t os) w Hin).
Qed.

Lemma prefix_append (tag rest : string) :
  String.prefix tag (tag ++ rest) = true.
Proof.
  induction tag as [|a tag IH]; cbn [String.prefix String.append].
  - destruct rest; reflexivity.
  - destruct (ascii_dec a a) as [_|Hne]; [ exact IH | now elim Hne ].
Qed.

Lemma prefix_differs (tag rest w : string) :
  String.prefix tag w = false -> (tag ++ rest)%string <> w.
Proof.
  intros Hp <-. rewrite prefix_append in Hp. discriminate Hp.
Qed.

Lemma tagged_prefix (w : string) :
  tagged w -> existsb (fun tag => String.prefix tag w) runner_tags = true.
Proof.
  intros (tag & rest & Hin & ->). apply existsb_exists.
  exists tag. split; [ exact Hin | apply prefix_append ].
Qed.

Ltac untagged :=
  let Ht := fresh "Ht" in
  intros Ht; apply tagged_prefix in Ht; vm_compute in Ht; discriminate Ht.

(** The console log of [main]: the lines of the driver around those of
    the runner. *)
Lemma main_lines (os : OS) :
  let c := os_chdir working_directory os in
  let s1 := subprocess_run status_cmd 30 (snd c) in
  let s2 := subprocess_run add_cmd 60 (snd s1) in
  let s3 := subprocess_run commit_cmd 60 (snd s2) in
  let s4 := subprocess_run push_cmd 120 (snd s3) in
  let os5 := time_sleep 10 (snd s4) in
  let s5 := subprocess_run list_cmd 30 os5 in
  let L1 := printed (trace (run_command_with_timeout status_cmd 30 (snd c))) in
  let L2 := printed (trace (run_command_with_timeout add_cmd 60 (snd s1))) in
  let L3 := printed (trace (run_command_with_timeout commit_cmd 60 (snd s2))) in
  let L4 := printed (trace (run_command_with_timeout push_cmd 120 (snd s3))) in
  let L5 := printed (trace (run_command_with_timeout list_cmd 30 os5)) in
  printed (trace (main os)) =
  ([ "🚀 Uploading Changes to Repository";
     "==================================" ] ++
   match fst c with
   | inl _ => []
   | inr _ =>
       [ ("📁 Working directory: " ++ os_getcwd (snd c))%string;
         (nl ++ "📋 Step 1: Checking git status...")%string ] ++ L1 ++
       if negb (succeeded (fst s1)) then [ "❌ Failed to check git status" ]
       else
       [ (nl ++ "📦 Step 2: Adding all changes...")%string ] ++ L2 ++
       if negb (succeeded (fst s2)) then [ "❌ Failed to add changes" ]
       else
       [ (nl ++ "💾 Step 3: Committing changes...")%string ] ++ L3 ++
       (if negb (succeeded (fst s3))
        then [ "⚠️ Commit may have failed or no changes to commit" ]
        else []) ++
       [ (nl ++ "🚀 Step 4: Pushing changes to remote...")%string ] ++ L4 ++
       if negb (succeeded (fst s4)) then [ "❌ Failed to push changes" ]
       else
       [ (nl ++ "✅ Successfully uploaded all changes to repository!")%string;
         (nl ++ "👀 Step 5: Checking GitHub Actions status...")%string ] ++ L5 ++
       [ if succeeded (fst s5)
         then "✅ GitHub Actions are running"
         else "⚠️ Could not check GitHub Actions (may need authentication)" ]
   end)%list.
Proof.
  cbv zeta.
  pose proof (produces_chdir working_directory os) as Hc.
  destruct (fst (os_chdir working_directory os)) as [e|[]] eqn:Ec.
  2: destruct (succeeded (fst (subprocess_run status_cmd 30 _))) eqn:E1.
  2: destruct (succeeded (fst (subprocess_run add_cmd 60 _))) eqn:E2.
  2: destruct (succeeded (fst (subprocess_run push_cmd 120 _))) eqn:E4.
  all: cbn [negb].
  all: eassert (Hp : produces main os _ _ _) by (unfold main; log).
  all: destruct Hp as (_ & Ht & _); rewrite Ht.
  all: rewrite ?printed_app; cbn [printed app].
  all: repeat match goal with
         | |- context [printed (if ?b then _ else _)] => destruct b
         end; cbn [printed app negb]; rewrite ?app_nil_r; reflexivity.
Qed.

Lemma produces_self {A : Type} (m : M OS A) (os : OS) :
  produces m os (trace (m os)) (result (m os)) (final (m os)).
Proof. repeat split. Qed.

(** The console log of the script: that of [main], then the banner. *)
Lemma script_lines (os : OS) :
  printed (trace (script os)) =
  (printed (trace (main os)) ++
   match result (main os) with
   | inl _ => []
   | inr true =>
       [ (nl ++ "🎉 DEPLOYMENT COMPLETE!")%string;
         "📋 Changes uploaded successfully";
         "🔍 Monitor GitHub Actions in the repository" ]
   | inr false =>
       [ (nl ++ "💥 DEPLOYMENT FAILED!")%string;
         "📋 Check the error messages above" ]
   end)%list.
Proof.
  pose proof (produces_self main os) as Hm.
  destruct (result (main os)) as [e|[|]].
  all: eassert (Hp : produces script os _ _ _) by (unfold script; log).
  all: destruct Hp as (_ & Ht & _); rewrite Ht.
  all: rewrite ?printed_app; cbn [printed app]; rewrite ?app_nil_r;
    reflexivity.
Qed.

Ltac find_line :=
  match goal with
  | |- In _ (_ ++ _) =>
      apply in_or_app; first [ left; find_line | right; find_line ]
  | |- In _ (_ :: _) =>
      first [ apply in_eq | apply in_cons; find_line ]
  end.

Ltac absurd_line H :=
  match type of H with
  | In _ (_ ++ _) =>
      apply in_app_or in H; destruct H as [H|H]; absurd_line H
  | In _ (_ :: _) =>
      apply in_inv in H; destruct H as [H|H]; absurd_line H
  | In _ [] => destruct H
  | In _ (printed (trace (run_command_with_timeout _ _ _))) =>
      revert H; apply runner_never_prints; untagged
  | ?a = ?b =>
      first [ apply (proj1 (String.eqb_neq a b));
              [ vm_compute; reflexivity | exact H ]
            | revert H; apply prefix_differs; vm_compute; reflexivity
            | cbn in H; discriminate H ]
  end.

Ltac settle_ifs :=
  repeat match goal with
    | |- context [if negb ?b then _ else _] => destruct b; cbn [negb]
    | |- context [if ?b then _ else _] => destruct b
    end.

Ltac line_iff :=
  split; intros Hline;
  [ first [ reflexivity | exfalso; absurd_line Hline ]
  | first [ find_line | discriminate Hline ] ].

(** X9: the runner writes the command line to the console before it
    spawns the child, stamped with the time of day, and everything else it
    writes comes after the child has ended. *)
Theorem runner_logs_before_spawning (cmd : string) (t : Z) (os : OS) :
  exists rest : list event,
    trace (run_command_with_timeout cmd t os) =
      Print ("[" ++ strftime_now os ++ "] Running: " ++ cmd)
      :: Run cmd t (fst (subprocess_run cmd t os)) :: rest /\
    forallb is_print rest = true.
Proof.
  rewrite runner_trace. eexists. split; [ reflexivity | ].
  destruct (fst (subprocess_run cmd t os)) as [[c t'|msg]|p];
    try reflexivity.
  destruct (truthy (stdout p)), (truthy (stderr p)); reflexivity.
Qed.

(** X10: the last line the runner writes tells its verdict: it is the
    line of success for the command exactly when the runner returns
    [True]. *)
Theorem runner_verdict_is_last_line (cmd : string) (t : Z) (os : OS) :
  let o := run_command_with_timeout cmd t os in
  last (printed (trace o)) "" = "✅ Command succeeded: " ++ cmd <->
  result o = inr true.
Proof.
  cbv zeta. destruct (yields_runner cmd t os) as (-> & _).
  rewrite runner_trace. cbn [printed].
  destruct (fst (subprocess_run cmd t os)) as [[c t'|msg]|p];
    cbn [printed succeeded last].
  - split; intros Hl; [ cbn in Hl | ]; discriminate Hl.
  - split; intros Hl; [ cbn in Hl | ]; discriminate Hl.
  - rewrite !printed_app.
    destruct (truthy (stdout p)), (truthy (stderr p)), (returncode p =? 0);
      cbn [printed app last];
      (split; intros Hl; [ first [ reflexivity | cbn in Hl; discriminate Hl ]
                         | first [ reflexivity | discriminate Hl ] ]).
Qed.

(** X11: what a child that ended wrote is echoed exactly when there is
    something to echo, on standard output and on standard error alike,
    whatever its exit status. *)
Theorem runner_echoes_nonempty_output (cmd : string) (t : Z) (os : OS)
    (p : CompletedProcess) :
  let lines := printed (trace (run_command_with_timeout cmd t os)) in
  fst (subprocess_run cmd t os) = inr p ->
  (In ("STDOUT: " ++ stdout p) lines <-> stdout p <> "") /\
  (In ("STDERR: " ++ stderr p) lines <-> stderr p <> "").
Proof.
  cbv zeta. intros Hp. rewrite runner_trace, Hp. cbn [printed].
  rewrite !printed_app.
  destruct (stdout p) as [|a out], (stderr p) as [|b err],
           (returncode p =? 0);
    cbn [truthy printed app];
    (split;
     (split; intros Hl;
      [ first [ discriminate | exfalso; absurd_line Hl ]
      | first [ find_line | exfalso; apply Hl; reflexivity ] ])).
Qed.

(** X12: when the child times out or cannot be run, the runner returns
    [False] and writes two lines and no more: the command line, and a line
    naming the timeout it was given or the message of the fault. *)
Theorem runner_reports_fault (cmd : string) (t : Z) (os : OS)
    (e : exception) :
  let o := run_command_with_timeout cmd t os in
  fst (subprocess_run cmd t os) = inl e ->
  result o = inr false /\
  printed (trace o) =
    [ "[" ++ strftime_now os ++ "] Running: " ++ cmd;
      match e with
      | TimeoutExpired _ _ =>
          "⏰ Command timed out after " ++ str t ++ "s: " ++ cmd
      | Exception msg => "💥 Command error: " ++ msg
      end ].
Proof.
  cbv zeta. intros He. destruct (yields_runner cmd t os) as (-> & _).
  rewrite runner_trace, He. destruct e; split; reflexivity.
Qed.

(** X13: each message of the driver about a step is the text of one of
    the [print] calls of a run exactly when the step went that way: the
    three messages of failure for the status check, the staging and the
    push, the warning for the commit, the line of success after the push,
    and the two lines about the listing.  The statement is about [print]
    calls: the echo of a child's output is one text, which begins with
    its tag, and what that text shows line by line on the console is not
    stated. *)
Theorem messages_match_steps (os : OS) :
  let tr := trace (main os) in
  let lines := printed tr in
  (In "❌ Failed to check git status" lines <->
     step_outcome status_cmd tr = Some false) /\
  (In "❌ Failed to add changes" lines <->
     step_outcome add_cmd tr = Some false) /\
  (In "⚠️ Commit may have failed or no changes to commit" lines <->
     step_outcome commit_cmd tr = Some false) /\
  (In "❌ Failed to push changes" lines <->
     step_outcome push_cmd tr = Some false) /\
  (In (nl ++ "✅ Successfully uploaded all changes to repository!") lines <->
     step_outcome push_cmd tr = Some true) /\
  (In "✅ GitHub Actions are running" lines <->
     step_outcome list_cmd tr = Some true) /\
  (In "⚠️ Could not check GitHub Actions (may need authentication)" lines <->
     step_outcome list_cmd tr = Some false).
Proof.
  cbv zeta. rewrite main_lines. cbv zeta.
  main_analysis os; on_trace Hv Hr; cbn [negb]; settle_ifs;
    repeat match goal with |- _ /\ _ => split end.
  all: line_iff.
Qed.

(** X14: the banner at the end agrees with the exit status: the line of
    completion is written exactly when the process ends with status 0, the
    line of failure exactly when [main] returned [False]; when [main] is
    left by an exception, neither is written. *)
Theorem banner_matches_exit_status (os : OS) :
  let lines := printed (trace (script os)) in
  (In (nl ++ "🎉 DEPLOYMENT COMPLETE!") lines <->
     exit_status (script os) = 0) /\
  (In (nl ++ "💥 DEPLOYMENT FAILED!") lines <->
     result (main os) = inr false).
Proof.
  cbv zeta. rewrite script_lines, main_lines. cbv zeta.
  main_analysis os; on_trace Hv Hr; cbn [negb]; settle_ifs;
    repeat match goal with |- _ /\ _ => split end.
  all: line_iff.
Qed.

End Runs.


(** ** The claims on concrete runs *)

Lemma exit_status_reflects_push_witness :
  exit_status (script all_ok) = 0 /\
  exit_status (script status_fails) = 1 /\
  exit_status (script add_fails) = 1 /\
  exit_status (script push_fails) = 1.
Proof.
  pose proof (@exit_status_reflects_push scripted scripted_platform all_ok)
    as (H0 & Hp & _).
  pose proof (@exit_status_reflects_push scripted scripted_platform
                status_fails) as (_ & _ & H1 & _).
  pose proof (@exit_status_reflects_push scripted scripted_platform
                add_fails) as (_ & _ & H2 & _).
  pose proof (@exit_status_reflects_push scripted scripted_platform
                push_fails) as (_ & _ & H3 & _).
  cbv zeta in *.
  split; [ apply H0, Hp; vm_compute; reflexivity | ].
  split; [ apply H1; left; vm_compute; reflexivity | ].
  split; [ apply H2; right; left; vm_compute; reflexivity | ].
  apply H3; right; right; vm_compute; reflexivity.
Defined.


Lemma status_failure_aborts_witness :
  step_outcome status_cmd (trace (main status_fails)) = Some false /\
  result (main status_fails) = inr false /\
  invocations (trace (main status_fails)) = [status_cmd].
Proof.
  assert (Hs : step_outcome status_cmd (trace (main status_fails))
               = Some false) by (vm_compute; reflexivity).
  split; [ exact Hs | ].
  destruct (@status_failure_aborts scripted scripted_platform status_fails Hs)
    as (Hr & Hi & _).
  split; assumption.
Defined.

Lemma commit_failure_is_advisory_witness :
  step_outcome commit_cmd (trace (main nothing_to_commit)) = Some false /\
  step_outcome push_cmd (trace (main nothing_to_commit)) = Some true /\
  result (main nothing_to_commit) = inr true /\
  exit_status (script nothing_to_commit) = 0.
Proof.
  assert (Hc : step_outcome commit_cmd (trace (main nothing_to_commit))
               = Some false) by (vm_compute; reflexivity).
  assert (Hp : step_outcome push_cmd (trace (main nothing_to_commit))
               = Some true) by (vm_compute; reflexivity).
  split; [ exact Hc | split; [ exact Hp | ] ].
  exact (proj2 (@commit_failure_is_advisory scripted scripted_platform
                  nothing_to_commit Hc) Hp).
Defined.

Lemma push_failure_scenario_witness :
  result (main push_fails) = inr false /\
  exit_status (script push_fails) = 1 /\
  step_outcome list_cmd (trace (main push_fails)) = None.
Proof.
  destruct (@push_failure_scenario scripted scripted_platform push_fails)
    as (Hr & He & Hl & _); try (vm_compute; reflexivity).
  repeat split; assumption.
Defined.

Lemma push_success_decides_witness :
  (result (main all_ok) = inr true /\ exit_status (script all_ok) = 0) /\
  (result (main listing_fails) = inr true /\
   exit_status (script listing_fails) = 0) /\
  (result (main listing_times_out) = inr true /\
   exit_status (script listing_times_out) = 0).
Proof.
  split; [ | split ].
  - destruct (@push_success_decides scripted scripted_platform all_ok
                (Some true)) as (Hr & He & _);
      try (vm_compute; reflexivity).
    split; assumption.
  - destruct (@push_success_decides scripted scripted_platform listing_fails
                (Some false)) as (Hr & He & _);
      try (vm_compute; reflexivity).
    split; assumption.
  - destruct (@push_success_decides scripted scripted_platform
                listing_times_out (Some false)) as (Hr & He & _);
      try (vm_compute; reflexivity).
    split; assumption.
Defined.

Lemma steps_follow_schedule_witness :
  result (main all_ok) = inr true /\
  actions (trace (main all_ok)) = schedule.
Proof.
  assert (Hr : result (main all_ok) = inr true) by (vm_compute; reflexivity).
  split; [ exact Hr | ].
  exact (proj1 (proj2 (@steps_follow_schedule scripted scripted_platform
                         all_ok)) Hr).
Defined.

Lemma step_timeouts_witness :
  In (Run push_cmd 120 (exits 0)) (trace (main all_ok)) /\
  30 <= 120 <= 300.
Proof.
  assert (Hin : In (Run push_cmd 120 (exits 0)) (trace (main all_ok))).
  { vm_compute. do 18 right. left. reflexivity. }
  split; [ exact Hin | ].
  exact (proj1 (@step_timeouts scripted scripted_platform all_ok
                  push_cmd 120 (exits 0) Hin)).
Defined.


(** With no working directory, [os.chdir] raises, no command is run and
    the process ends with status 1. *)
Example missing_directory :
  exit_status (@script scripted homeless_platform all_ok) = 1 /\
  invocations (trace (@script scripted homeless_platform all_ok)) = [].
Proof. vm_compute. split; reflexivity. Qed.

(** ** Further properties on concrete runs *)

Lemma chdir_failure_propagates_witness :
  fst (@os_chdir scripted homeless_platform working_directory all_ok)
    = inl (Exception "No such file or directory") /\
  exit_status (@script scripted homeless_platform all_ok) = 1 /\
  actions (trace (@script scripted homeless_platform all_ok)) = [].
Proof.
  split; [ reflexivity | ].
  destruct (@chdir_failure_propagates scripted homeless_platform all_ok
              (Exception "No such file or directory") eq_refl)
    as (_ & _ & He & Ha & _).
  split; assumption.
Defined.

Lemma staging_failure_aborts_witness :
  step_outcome add_cmd (trace (main add_fails)) = Some false /\
  result (main add_fails) = inr false /\
  invocations (trace (main add_fails)) = [status_cmd; add_cmd].
Proof.
  assert (Ha : step_outcome add_cmd (trace (main add_fails)) = Some false)
    by (vm_compute; reflexivity).
  split; [ exact Ha | ].
  destruct (@staging_failure_aborts scripted scripted_platform add_fails Ha)
    as (Hr & _ & Hi & _).
  split; assumption.
Defined.

Lemma runner_echoes_nonempty_output_witness :
  In "STDOUT:  M README.md"
     (printed (trace (run_command_with_timeout status_cmd 30
                        [says " M README.md" "" 0]))) /\
  ~ In "STDERR: "
       (printed (trace (run_command_with_timeout status_cmd 30
                          [says " M README.md" "" 0]))).
Proof.
  destruct (@runner_echoes_nonempty_output scripted scripted_platform
              status_cmd 30 [says " M README.md" "" 0]
              (mkCompleted " M README.md" "" 0) eq_refl) as (Hout & Herr).
  split.
  - apply Hout. discriminate.
  - intros Hin. apply Herr in Hin. apply Hin. reflexivity.
Defined.

Lemma runner_reports_fault_witness :
  result (run_command_with_timeout list_cmd 30 listing_times_out_now)
    = inr false /\
  printed (trace (run_command_with_timeout list_cmd 30 listing_times_out_now))
    = [ "[12:00:00] Running: gh run list --limit 3";
        "⏰ Command timed out after 30s: gh run list --limit 3" ].
Proof.
  exact (@runner_reports_fault scripted scripted_platform list_cmd 30
           listing_times_out_now (TimeoutExpired list_cmd 30) eq_refl).
Defined.

(** * The runner when the console can fail *)

Section FallibleRunner.

Context {OS : Type} {S : Fallible.System OS}.














End FallibleRunner.



(** ** The two embeddings of the runner *)

Section Agreement.

Context {OS : Type} (P : Platform OS).

Let S : Fallible.System OS := of_platform P.

Lemma ends_ret {A : Type} (a : A) (os : OS) :
  Fallible.ends (Fallible.ret a) os (inr a) os.
Proof. split; reflexivity. Qed.

Lemma ends_now (os : OS) :
  Fallible.ends (@Fallible.now OS S) os (inr (strftime_now os)) os.
Proof. split; reflexivity. Qed.

Lemma ends_print (line : string) (os : OS) :
  Fallible.ends (@Fallible.print OS S line) os (inr tt) os.
Proof. split; reflexivity. Qed.

Lemma ends_when (b : bool) (line : string) (os : OS) :
  Fallible.ends (Fallible.when b (@Fallible.print OS S line)) os (inr tt) os.
Proof. destruct b; split; reflexivity. Qed.

Lemma ends_run (cmd : string) (t : Z) (os : OS) :
  Fallible.ends (@Fallible.run OS S cmd t) os
    match fst (subprocess_run cmd t os) with
    | inl e => inl (Fallible.Ordinary e)
    | inr p => inr p
    end
    (snd (subprocess_run cmd t os)).
Proof. split; reflexivity. Qed.

Lemma ends_bind {A B : Type} (m : Fallible.M OS A)
    (k : A -> Fallible.M OS B) (os os1 os2 : OS) (a : A)
    (r : Fallible.raised + B) :
  Fallible.ends m os (inr a) os1 ->
  Fallible.ends (k a) os1 r os2 ->
  Fallible.ends (Fallible.bind m k) os r os2.
Proof.
  intros (Hr & Hf) (Hr' & Hf'). unfold Fallible.ends, Fallible.bind.
  rewrite Hr, Hf. cbn [Fallible.result Fallible.final]. auto.
Qed.

Lemma ends_bind_raise {A B : Type} (m : Fallible.M OS A)
    (k : A -> Fallible.M OS B) (os os1 : OS) (e : Fallible.raised) :
  Fallible.ends m os (inl e) os1 ->
  Fallible.ends (Fallible.bind m k) os (inl e) os1.
Proof.
  intros (Hr & Hf). unfold Fallible.ends, Fallible.bind. rewrite Hr. auto.
Qed.

Lemma ends_try {A : Type} (body : Fallible.M OS A)
    (clauses : Fallible.raised -> option (Fallible.M OS A))
    (os os' : OS) (a : A) :
  Fallible.ends body os (inr a) os' ->
  Fallible.ends (Fallible.try_except body clauses) os (inr a) os'.
Proof.
  intros (Hr & Hf). unfold Fallible.ends, Fallible.try_except.
  rewrite Hr. auto.
Qed.

Lemma ends_except {A : Type} (body handler : Fallible.M OS A)
    (clauses : Fallible.raised -> option (Fallible.M OS A))
    (os os1 os2 : OS) (e : Fallible.raised) (r : Fallible.raised + A) :
  Fallible.ends body os (inl e) os1 ->
  clauses e = Some handler ->
  Fallible.ends handler os1 r os2 ->
  Fallible.ends (Fallible.try_except body clauses) os r os2.
Proof.
  intros (Hr & Hf) Hc (Hr' & Hf'). unfold Fallible.ends, Fallible.try_except.
  rewrite Hr, Hc, Hf. cbn [Fallible.result Fallible.final]. auto.
Qed.

(** On a console that takes every line, and with a [subprocess.run] that
    raises instances of [Exception] only, the runner of the second
    embedding returns what the runner of the first returns, and leaves
    the system in the same state. *)
Lemma fallible_runner_agrees (cmd : string) (t : Z) (os : OS) :
  let o := @Fallible.run_command_with_timeout OS S cmd t os in
  let o' := run_command_with_timeout cmd t os in
  match result o' with
  | inl e => Fallible.result o = inl (Fallible.Ordinary e)
  | inr b => Fallible.result o = inr b
  end /\
  Fallible.final o = final o'.
Proof.
  cbv zeta. destruct (yields_runner cmd t os) as (-> & _ & ->).
  change (Fallible.ends (@Fallible.run_command_with_timeout OS S cmd t) os
            (inr (succeeded (fst (subprocess_run cmd t os))))
            (snd (subprocess_run cmd t os))).
  unfold Fallible.run_command_with_timeout.
  eapply ends_bind; [ apply ends_now | cbv beta ].
  eapply ends_bind; [ apply ends_print | cbv beta ].
  pose proof (ends_run cmd t os) as Hrun.
  destruct (fst (subprocess_run cmd t os)) as [[c t'|msg]|p];
    cbn [succeeded].
  - eapply ends_except;
      [ apply ends_bind_raise, Hrun | reflexivity | ].
    eapply ends_bind; [ apply ends_print | apply ends_ret ].
  - eapply ends_except;
      [ apply ends_bind_raise, Hrun | reflexivity | ].
    eapply ends_bind; [ apply ends_print | apply ends_ret ].
  - apply ends_try.
    eapply ends_bind; [ exact Hrun | cbv beta ].
    eapply ends_bind; [ apply ends_when | cbv beta ].
    eapply ends_bind; [ apply ends_when | cbv beta ].
    destruct (returncode p =? 0);
      (eapply ends_bind; [ apply ends_print | apply ends_ret ]).
Qed.

End Agreement.
